(** * GXAgent: admission control and connection lifecycle

    A shallow embedding of [great_expectations/agent/agent.py].

    The agent owns a thread pool with a single worker, remembers the
    future of the last task it submitted in [_current_task], and is fed
    events by the blocking [Subscriber.consume] loop.  The methods of
    [GXAgent] are written as computations in a small state and exception
    monad; the thread pool, the futures it hands out and the worker thread
    are an explicit store, so that the aliasing between the agent's
    [_current_task] and the future held by the worker is visible. *)

From stdpp Require Import base option list gmap strings.

Open Scope string_scope.

(** ** Exceptions and results *)

(** The exception classes that occur in [agent.py], by name.  [OtherError]
    stands for an instance of any class that is none of the five above it
    nor a subclass of one of them (builtins such as [RuntimeError], or
    pydantic's [ValidationError]). *)
Inductive exn : Type :=
  | KeyboardInterrupt
  | SubscriberError (msg : string)
  | ClientError (msg : string)
  | RequeueMessageError
  | GXAgentError (msg : string)
  | OtherError (cls msg : string).

(** [str(e)], as printed by [print(e)]. *)
Definition exn_str (e : exn) : string :=
  match e with
  | KeyboardInterrupt => ""
  | SubscriberError msg => msg
  | ClientError msg => msg
  | RequeueMessageError => ""
  | GXAgentError msg => msg
  | OtherError _ msg => msg
  end.

(** The outcome of a call: it returns a value or raises. *)
Inductive result (A : Type) : Type :=
  | Return (a : A)
  | Raise (e : exn).
Arguments Return {A} a.
Arguments Raise {A} e.

(** ** Futures ([concurrent.futures.Future]) *)

Inductive future_state : Type :=
  | PENDING
  | RUNNING
  | CANCELLED
  | CANCELLED_AND_NOTIFIED
  | FINISHED.

Record Future : Type := mkFuture {
  _state : future_state;
  _exception : option exn
}.

(** [Future.done()]: the call was cancelled or finished running. *)
Definition Future_done (f : Future) : bool :=
  match _state f with
  | CANCELLED | CANCELLED_AND_NOTIFIED | FINISHED => true
  | PENDING | RUNNING => false
  end.

(** [Future.set_result] and [Future.set_exception]. *)
Definition Future_set_outcome (r : result unit) (f : Future) : Future :=
  match r with
  | Return _ => {| _state := FINISHED; _exception := None |}
  | Raise e => {| _state := FINISHED; _exception := Some e |}
  end.

(** [Future.set_running_or_notify_cancel]: the new future and the flag the
    worker tests before it runs the call. *)
Definition Future_set_running_or_notify_cancel (f : Future) : Future * bool :=
  match _state f with
  | CANCELLED =>
      ({| _state := CANCELLED_AND_NOTIFIED; _exception := _exception f |}, false)
  | PENDING => ({| _state := RUNNING; _exception := _exception f |}, true)
  | _ => (f, false)  (* a running or finished future is never handed out twice *)
  end.

(** A reference to a [Future] object: its index in the store. *)
Abbreviation ref := nat.

(** ** Calls on the external collaborators, in program order *)

Inductive call : Type :=
  | call_get_context
  | call_RabbitMQClient (url : string)
  | call_Subscriber
  | call_consume (queue : string)
  | call_close
  | call_ack (correlation_id : string)
  | call_requeue (correlation_id : string).

Global Instance call_eq_dec : EqDecision call.
Proof. solve_decision. Defined.

Definition is_close (c : call) : bool :=
  match c with call_close => true | _ => false end.

Definition is_connection_call (c : call) : bool :=
  match c with
  | call_RabbitMQClient _ | call_Subscriber | call_consume _ | call_close => true
  | _ => false
  end.

(** [GXAgentConfig], a frozen dataclass. *)
Record GXAgentConfig : Type := mkGXAgentConfig {
  organization_id : string;
  broker_url : string
}.

Section Agent.

(** [Event] and [CloudDataContext] are opaque to the agent. *)
Context {Event CloudDataContext : Type}.

(** ** The thread pool *)

(** A queued call [self._handle_event(event=..., correlation_id=...)]
    together with the future that will receive its outcome. *)
Record WorkItem : Type := mkWorkItem {
  wi_future : ref;
  wi_event : Event;
  wi_correlation_id : string
}.

(** [ThreadPoolExecutor]: the bound on worker threads, the queue of work
    items not yet picked up, and the items the worker threads are running
    (one per busy thread). *)
Record ThreadPoolExecutor : Type := mkExecutor {
  _max_workers : nat;
  _work_queue : list WorkItem;
  _busy : list WorkItem
}.

Record GXAgent : Type := mkGXAgent {
  _config : GXAgentConfig;
  _context : CloudDataContext;
  _executor : ThreadPoolExecutor;
  _current_task : option ref
}.

(** The process around the agent: the store of [Future] objects, what was
    printed, and the calls made on the collaborators. *)
Record Process : Type := mkProcess {
  futures : list Future;
  stdout : list string;
  calls : list call
}.

Record State : Type := mkState {
  self : GXAgent;
  proc : Process
}.

Definition fresh_process : Process :=
  {| futures := []; stdout := []; calls := [] |}.

(** ** The collaborators

    Everything [agent.py] imports and calls is a parameter: the process
    environment, pydantic's validation of the broker URL, [get_context],
    the event handler, the constructors of the broker client and of the
    subscriber, what [consume] does while it blocks and how it ends, and
    how [close] ends. *)

(** What happens while [Subscriber.consume] blocks: the broker delivers a
    message, the worker thread picks up a queued item, or the worker thread
    running the [i]-th busy item finishes it. *)
Inductive action : Type :=
  | Deliver (event : Event) (correlation_id : string)
  | WorkerStart
  | WorkerFinish (i : nat).

Record Env : Type := mkEnv {
  environ : gmap string string;
  AmqpDsn_valid : string -> bool;
  get_context : result CloudDataContext;
  handle_event : CloudDataContext -> Event -> string -> result unit;
  RabbitMQClient_init : string -> result unit;
  Subscriber_init : result unit;
  consume_schedule : list action;
  consume_end : result unit;
  Subscriber_close : result unit
}.

Variable env : Env.

(** ** The monad of the agent's methods *)

Definition M (A : Type) : Type := State -> result A * State.

Definition ret {A} (a : A) : M A := fun s => (Return a, s).
Definition raise {A} (e : exn) : M A := fun s => (Raise e, s).
Definition bind {A B} (k : A -> M B) (m : M A) : M B :=
  fun s => match m s with
           | (Return a, s') => k a s'
           | (Raise e, s') => (Raise e, s')
           end.

#[local] Instance M_ret : MRet M := @ret.
#[local] Instance M_bind : MBind M := @bind.

(** A computation that ends as [r] says and changes nothing. *)
Definition ends {A} (r : result A) : M A := fun s => (r, s).

Definition print_to (line : string) (p : Process) : Process :=
  {| futures := futures p; stdout := stdout p ++ [line]; calls := calls p |}.
Definition record_to (c : call) (p : Process) : Process :=
  {| futures := futures p; stdout := stdout p; calls := calls p ++ [c] |}.

Definition print (line : string) : M unit :=
  fun s => (Return tt, {| self := self s; proc := print_to line (proc s) |}).
Definition record (c : call) : M unit :=
  fun s => (Return tt, {| self := self s; proc := record_to c (proc s) |}).

(** A call on a collaborator: recorded, then it ends as the environment
    says. *)
Definition extern {A} (c : call) (r : result A) : M A :=
  fun s => (r, {| self := self s; proc := record_to c (proc s) |}).

(** ** [ThreadPoolExecutor.submit] *)

(** A new [Future] in state [PENDING] is allocated, the work item is put on
    the queue, and the future is returned. *)
Definition submit (event : Event) (correlation_id : string) : M ref :=
  fun s =>
    let f := length (futures (proc s)) in
    let w := {| wi_future := f; wi_event := event;
                wi_correlation_id := correlation_id |} in
    let ex := _executor (self s) in
    (Return f,
     {| self := {| _config := _config (self s);
                   _context := _context (self s);
                   _executor := {| _max_workers := _max_workers ex;
                                   _work_queue := _work_queue ex ++ [w];
                                   _busy := _busy ex |};
                   _current_task := _current_task (self s) |};
        proc := {| futures := futures (proc s)
                                ++ [{| _state := PENDING; _exception := None |}];
                   stdout := stdout (proc s);
                   calls := calls (proc s) |} |}).

(** ** [GXAgent._can_accept_new_task] *)

(** [self._current_task is None or self._current_task.done()] *)
Definition _can_accept_new_task (s : State) : bool :=
  match _current_task (self s) with
  | None => true
  | Some t =>
      match futures (proc s) !! t with
      | Some f => Future_done f
      | None => false
      end
  end.

(** ** [GXAgent._handle_event] *)

(** [EventHandler(context=self._context).handle_event(event, correlation_id)] *)
Definition _handle_event (a : GXAgent) (event : Event) (correlation_id : string)
  : result unit :=
  handle_event env (_context a) event correlation_id.

(** ** [GXAgent._handle_event_as_thread] *)

Definition set_current_task (t : option ref) : M unit :=
  fun s =>
    (Return tt,
     {| self := {| _config := _config (self s);
                   _context := _context (self s);
                   _executor := _executor (self s);
                   _current_task := t |};
        proc := proc s |}).

Definition _handle_event_as_thread (event : Event) (correlation_id : string)
  : M unit :=
  fun s =>
    if negb (_can_accept_new_task s)
    then raise RequeueMessageError s
    else (t ← submit event correlation_id;
          set_current_task (Some t)) s.

(** ** The worker thread ([concurrent.futures.thread._worker]) *)

Definition set_executor (ex : ThreadPoolExecutor) (s : State) : State :=
  {| self := {| _config := _config (self s);
                _context := _context (self s);
                _executor := ex;
                _current_task := _current_task (self s) |};
     proc := proc s |}.

Definition set_future (t : ref) (f : Future) (s : State) : State :=
  {| self := self s;
     proc := {| futures := <[t := f]> (futures (proc s));
                stdout := stdout (proc s);
                calls := calls (proc s) |} |}.

(** An idle worker thread takes the oldest item off the queue and marks its
    future as running; an item whose future was cancelled is dropped.
    Nothing happens when the queue is empty or when [_max_workers] threads
    are busy already. *)
Definition worker_start (s : State) : State :=
  let ex := _executor (self s) in
  match _work_queue ex with
  | [] => s
  | w :: queue =>
      if decide (length (_busy ex) < _max_workers ex) then
        match futures (proc s) !! wi_future w with
        | None => s
        | Some f =>
            let '(f', go) := Future_set_running_or_notify_cancel f in
            set_future (wi_future w) f'
              (set_executor
                 {| _max_workers := _max_workers ex;
                    _work_queue := queue;
                    _busy := if go then _busy ex ++ [w] else _busy ex |} s)
        end
      else s
  end.

(** The thread running the [i]-th busy item comes to the end of
    [_handle_event]: the outcome, a return or any exception, is stored on
    the future and the thread is idle again. *)
Definition worker_finish (i : nat) (s : State) : State :=
  let ex := _executor (self s) in
  match _busy ex !! i with
  | None => s
  | Some w =>
      let r := _handle_event (self s) (wi_event w) (wi_correlation_id w) in
      match futures (proc s) !! wi_future w with
      | None => s
      | Some f =>
          set_future (wi_future w) (Future_set_outcome r f)
            (set_executor
               {| _max_workers := _max_workers ex;
                  _work_queue := _work_queue ex;
                  _busy := delete i (_busy ex) |} s)
      end
  end.

(** The events under execution: those whose [_handle_event] call a worker
    thread has entered and not left. *)
Definition under_execution (s : State) : list WorkItem :=
  _busy (_executor (self s)).

(** The work items the pool has accepted and not finished. *)
Definition outstanding (s : State) : list WorkItem :=
  _work_queue (_executor (self s)) ++ _busy (_executor (self s)).

(** ** [Subscriber] *)

Record RabbitMQClient : Type := mkRabbitMQClient { client_url : string }.
Record Subscriber : Type := mkSubscriber { client : RabbitMQClient }.

Definition OnMessageCallback : Type := Event -> string -> M unit.

(** Modelled from the spec: [Subscriber.consume] (the module
    [message_service/subscriber.py] is not part of the sources).  The
    callback is invoked once per delivered message; when it raises the
    requeue signal the message is handed back to the broker for redelivery,
    when it returns the message is acknowledged.  The worker thread runs
    between deliveries as the schedule says. *)
Fixpoint deliver_all (on_message : OnMessageCallback) (schedule : list action)
  : M unit :=
  fun s =>
    match schedule with
    | [] => (Return tt, s)
    | Deliver event correlation_id :: rest =>
        match on_message event correlation_id s with
        | (Return _, s') =>
            (record (call_ack correlation_id);; deliver_all on_message rest) s'
        | (Raise RequeueMessageError, s') =>
            (record (call_requeue correlation_id);;
             deliver_all on_message rest) s'
        | (Raise e, s') => (Raise e, s')
        end
    | WorkerStart :: rest => deliver_all on_message rest (worker_start s)
    | WorkerFinish i :: rest => deliver_all on_message rest (worker_finish i s)
    end.

(** Modelled from the spec: [consume] blocks, delivering messages, until
    the connection is closed or fails. *)
Definition Subscriber_consume (subscriber : Subscriber) (queue : string)
    (on_message : OnMessageCallback) : M unit :=
  record (call_consume queue);;
  deliver_all on_message (consume_schedule env);;
  ends (consume_end env).

(** ** [GXAgent._close_subscriber] *)

Definition _close_subscriber (subscriber : option Subscriber) : M unit :=
  match subscriber with
  | None => mret tt
  | Some _ =>
      fun s =>
        match extern call_close (Subscriber_close env) s with
        | (Raise (SubscriberError msg), s') =>
            (print "Subscriber encountered an error while closing:";;
             print msg) s'
        | other => other
        end
  end.

(** ** [GXAgent._listen] *)

(** The [try] block: how it ends, and the local [subscriber] when it is
    left. *)
Definition _listen_try (s : State) : (option Subscriber * result unit) * State :=
  let url := broker_url (_config (self s)) in
  match extern (call_RabbitMQClient url) (RabbitMQClient_init env url) s with
  | (Raise e, s1) => ((None, Raise e), s1)
  | (Return _, s1) =>
      let client := {| client_url := url |} in
      match extern call_Subscriber (Subscriber_init env) s1 with
      | (Raise e, s2) => ((None, Raise e), s2)
      | (Return _, s2) =>
          let subscriber := {| client := client |} in
          let '(r, s3) :=
            (print "GX-Agent is ready.";;
             Subscriber_consume subscriber
               (organization_id (_config (self s2)))
               _handle_event_as_thread) s2 in
          ((Some subscriber, r), s3)
      end
  end.

(** The [except] clauses, in their order. *)
Definition _listen_except (r : result unit) : M unit :=
  match r with
  | Raise KeyboardInterrupt => print "Received request to shutdown."
  | Raise (SubscriberError msg) | Raise (ClientError msg) =>
      print "Connection to GX Cloud has encountered an error.";;
      print "Please restart the agent and try your action again.";;
      print msg
  | _ => ends r
  end.

(** A [finally] clause: it runs in every case, and an exception it raises
    replaces the pending outcome. *)
Definition finally {A} (r : result A) (clause : M unit) : M A :=
  fun s =>
    match clause s with
    | (Return _, s') => (r, s')
    | (Raise e, s') => (Raise e, s')
    end.

Definition _listen : M unit :=
  fun s =>
    let '((subscriber, r), s1) := _listen_try s in
    let '(r', s2) := _listen_except r s1 in
    finally r' (_close_subscriber subscriber) s2.

(** ** [GXAgent.run] *)

Definition run : M unit :=
  print "Opening connection to GX Cloud";;
  _listen;;
  print "Connection to GX Cloud has been closed.".

(** ** [GXAgent._get_config_from_env] *)

(** [GXAgentConfig(organization_id=..., broker_url=...)]: the pydantic
    dataclass validates the URL and raises [ValidationError] on failure. *)
Definition GXAgentConfig_init (org_id url : string) : result GXAgentConfig :=
  if AmqpDsn_valid env url
  then Return {| organization_id := org_id; broker_url := url |}
  else Raise (OtherError "ValidationError" "broker_url").

Definition _get_config_from_env : result GXAgentConfig :=
  match environ env !! "BROKER_URL" with
  | None =>
      Raise (GXAgentError "Missing required environment variable: BROKER_URL")
  | Some url =>
      match environ env !! "GE_CLOUD_ORGANIZATION_ID" with
      | None =>
          Raise (GXAgentError
            "Missing required environment variable: GE_CLOUD_ORGANIZATION_ID")
      | Some org_id => GXAgentConfig_init org_id url
      end
  end.

(** ** [GXAgent.__init__] *)

(** [ThreadPoolExecutor(max_workers=n)] *)
Definition ThreadPoolExecutor_init (n : nat) : ThreadPoolExecutor :=
  {| _max_workers := n; _work_queue := []; _busy := [] |}.

Definition __init__ (p : Process) : result GXAgent * Process :=
  let p1 := print_to "Initializing GX-Agent" p in
  match _get_config_from_env with
  | Raise e => (Raise e, p1)
  | Return config =>
      let p2 := print_to "Loading a DataContext - this might take a moment." p1 in
      let p3 := record_to call_get_context p2 in
      match get_context env with
      | Raise e => (Raise e, p3)
      | Return context =>
          let p4 := print_to "DataContext is ready." p3 in
          (Return {| _config := config;
                     _context := context;
                     _executor := ThreadPoolExecutor_init 1;
                     _current_task := None |},
           p4)
      end
  end.

(** ** Runs of the agent *)

(** One step of the process once the agent exists: the consumption loop
    calls [_handle_event_as_thread], or the worker thread moves. *)
Definition step (a : action) (s : State) : State :=
  match a with
  | Deliver event correlation_id =>
      snd (_handle_event_as_thread event correlation_id s)
  | WorkerStart => worker_start s
  | WorkerFinish i => worker_finish i s
  end.

Definition steps (schedule : list action) (s : State) : State :=
  foldl (fun s a => step a s) s schedule.

End Agent.

Arguments WorkItem : clear implicits.
Arguments ThreadPoolExecutor : clear implicits.
Arguments GXAgent : clear implicits.
Arguments State : clear implicits.
Arguments action : clear implicits.
Arguments Env : clear implicits.

(** ** The execution slot

    What the admission check maintains: the pool has one worker; it holds
    at most one unfinished work item, queued (its future pending) or being
    run (its future running); and the future of that item is the one the
    agent remembers in [_current_task]. *)
Definition slot_item {Event CloudDataContext}
    (s : State Event CloudDataContext) (w : WorkItem Event)
    (st : future_state) : Prop :=
  _current_task (self s) = Some (wi_future w) /\
  exists f, futures (proc s) !! wi_future w = Some f /\ _state f = st.

Definition slot_inv {Event CloudDataContext}
    (s : State Event CloudDataContext) : Prop :=
  _max_workers (_executor (self s)) = 1 /\
  match _work_queue (_executor (self s)), _busy (_executor (self s)) with
  | [], [] => True
  | [w], [] => slot_item s w PENDING
  | [], [w] => slot_item s w RUNNING
  | _, _ => False
  end.

(** The exceptions the [except] clauses of [_listen] catch. *)
Definition caught_by_listen (e : exn) : bool :=
  match e with
  | KeyboardInterrupt | SubscriberError _ | ClientError _ => true
  | _ => false
  end.

(** The slot invariant together with its converse: when the pool holds no
    unfinished work, the admission check succeeds. *)
Definition slot_exact {Event CloudDataContext}
    (s : State Event CloudDataContext) : Prop :=
  slot_inv s /\ (outstanding s = [] -> _can_accept_new_task s = true).

(** The moves of the consumption loop, as opposed to those of the worker. *)
Definition is_delivery {Event} (a : action Event) : bool :=
  match a with Deliver _ _ => true | _ => false end.

(** The calls by which the subscriber answers a delivered message. *)
Definition is_answer (c : call) : bool :=
  match c with call_ack _ | call_requeue _ => true | _ => false end.

(** The number of [close] calls a process has made on its subscriber. *)
Definition close_calls (p : Process) : nat :=
  count_occ call_eq_dec (calls p) call_close.

(** ** A concrete deployment, for running the definitions *)

Module Demo.

Definition environment : gmap string string :=
  <["BROKER_URL" := "amqps://broker.example:5671"]>
    (<["GE_CLOUD_ORGANIZATION_ID" := "org-42"]> ∅).

(** Events are named by strings; the handler fails on the event ["boom"]. *)
Definition handler (_ : unit) (event : string) (_ : string) : result unit :=
  if decide (event = "boom")
  then Raise (OtherError "ValueError" "boom")
  else Return tt.

(** A session that ends with Ctrl-C and a clean close. *)
Definition env : Env string unit :=
  {| environ := environment;
     AmqpDsn_valid := fun _ => true;
     get_context := Return tt;
     handle_event := handler;
     RabbitMQClient_init := fun _ => Return tt;
     Subscriber_init := Return tt;
     consume_schedule :=
       [Deliver "E1" "c1"; Deliver "E2" "c2"; WorkerStart;
        Deliver "E2" "c2"; WorkerFinish 0; Deliver "E3" "c3"];
     consume_end := Raise KeyboardInterrupt;
     Subscriber_close := Return tt |}.

(** The same deployment with other endings of [consume] and [close]. *)
Definition env_ending (ended closed : result unit) : Env string unit :=
  {| environ := environment;
     AmqpDsn_valid := fun _ => true;
     get_context := Return tt;
     handle_event := handler;
     RabbitMQClient_init := fun _ => Return tt;
     Subscriber_init := Return tt;
     consume_schedule := consume_schedule env;
     consume_end := ended;
     Subscriber_close := closed |}.

(** The same deployment with one environment variable taken away. *)
Definition env_without (name : string) : Env string unit :=
  {| environ := delete name environment;
     AmqpDsn_valid := fun _ => true;
     get_context := Return tt;
     handle_event := handler;
     RabbitMQClient_init := fun _ => Return tt;
     Subscriber_init := Return tt;
     consume_schedule := consume_schedule env;
     consume_end := consume_end env;
     Subscriber_close := Return tt |}.

(** The same deployment with a broker that cannot be reached. *)
Definition env_unreachable : Env string unit :=
  {| environ := environment;
     AmqpDsn_valid := fun _ => true;
     get_context := Return tt;
     handle_event := handler;
     RabbitMQClient_init := fun _ => Raise (ClientError "connection refused");
     Subscriber_init := Return tt;
     consume_schedule := consume_schedule env;
     consume_end := consume_end env;
     Subscriber_close := Return tt |}.

Definition agent : GXAgent string unit :=
  {| _config := {| organization_id := "org-42";
                  broker_url := "amqps://broker.example:5671" |};
     _context := tt;
     _executor := ThreadPoolExecutor_init 1;
     _current_task := None |}.

Definition started : Process :=
  {| futures := [];
     stdout := ["Initializing GX-Agent";
                "Loading a DataContext - this might take a moment.";
                "DataContext is ready."];
     calls := [call_get_context] |}.

Definition state0 : State string unit := {| self := agent; proc := started |}.

(** The agent after it accepted ["E1"], whose task has not finished. *)
Definition busy_state : State string unit :=
  steps env [Deliver "E1" "c1"; WorkerStart] state0.

(** The agent while the worker thread runs the task of ["boom"]. *)
Definition boom_running : State string unit :=
  steps env [Deliver "boom" "c1"; WorkerStart] state0.

(** The agent after the task of ["boom"] failed. *)
Definition failed_state : State string unit :=
  steps env [Deliver "boom" "c1"; WorkerStart; WorkerFinish 0] state0.

(** The subscriber [_listen] constructs in this deployment. *)
Definition subscriber : Subscriber :=
  {| client := {| client_url := "amqps://broker.example:5671" |} |}.

(** A session whose connection is lost and whose [close] then fails the
    declared way. *)
Definition env_close_fails : Env string unit :=
  env_ending (Raise (ClientError "connection lost"))
             (Raise (SubscriberError "channel already closed")).

(** A session in which [consume] fails with an undeclared error and
    [close] then fails with another undeclared error. *)
Definition env_close_escapes : Env string unit :=
  env_ending (Raise (OtherError "ValueError" "bad frame"))
             (Raise (OtherError "OSError" "socket closed")).

(** A session whose connection is lost and in which Ctrl-C arrives while
    the subscriber is closing. *)
Definition env_interrupted_closing : Env string unit :=
  env_ending (Raise (SubscriberError "connection lost"))
             (Raise KeyboardInterrupt).

Example init_ok : __init__ env fresh_process = (Return agent, started).
Proof. vm_compute. reflexivity. Qed.

Example scenario_accept_reject_accept :
  fst (_handle_event_as_thread "E1" "c1" state0) = Return tt /\
  fst (_handle_event_as_thread "E2" "c2" busy_state) = Raise RequeueMessageError /\
  fst (_handle_event_as_thread "E3" "c3" (worker_finish env 0 busy_state))
    = Return tt.
Proof. vm_compute. repeat split. Qed.

Example session_calls :
  calls (proc (snd (run env state0))) =
  [call_get_context; call_RabbitMQClient "amqps://broker.example:5671";
   call_Subscriber; call_consume "org-42";
   call_ack "c1"; call_requeue "c2"; call_requeue "c2"; call_ack "c3";
   call_close].
Proof. vm_compute. reflexivity. Qed.

Example session_returns : fst (run env state0) = Return tt.
Proof. vm_compute. reflexivity. Qed.

Example unreachable_broker_session :
  fst (run env_unreachable state0) = Return tt /\
  calls (proc (snd (run env_unreachable state0)))
    = [call_get_context; call_RabbitMQClient "amqps://broker.example:5671"].
Proof. vm_compute. split; reflexivity. Qed.

End Demo.

(** * Properties *)

Section Properties.

Context {Event CloudDataContext : Type}.
Variable env : Env Event CloudDataContext.

Abbreviation State := (State Event CloudDataContext).
Abbreviation dispatch := (@_handle_event_as_thread Event CloudDataContext).

(** ** The admission check *)

Lemma dispatch_busy (s : State) event correlation_id :
  _can_accept_new_task s = false ->
  dispatch event correlation_id s = (Raise RequeueMessageError, s).
Proof.
  intros Hbusy. unfold _handle_event_as_thread. rewrite Hbusy. reflexivity.
Qed.

Lemma dispatch_idle (s : State) event correlation_id :
  _can_accept_new_task s = true ->
  dispatch event correlation_id s =
    (Return tt,
     {| self := {| _config := _config (self s);
                   _context := _context (self s);
                   _executor :=
                     {| _max_workers := _max_workers (_executor (self s));
                        _work_queue :=
                          _work_queue (_executor (self s))
                          ++ [{| wi_future := length (futures (proc s));
                                 wi_event := event;
                                 wi_correlation_id := correlation_id |}];
                        _busy := _busy (_executor (self s)) |};
                   _current_task := Some (length (futures (proc s))) |};
        proc := {| futures := futures (proc s)
                                ++ [{| _state := PENDING; _exception := None |}];
                   stdout := stdout (proc s);
                   calls := calls (proc s) |} |}).
Proof.
  intros Hidle. unfold _handle_event_as_thread. rewrite Hidle. reflexivity.
Qed.

Lemma slot_item_busy (s : State) w st :
  slot_item s w st -> Future_done {| _state := st; _exception := None |} = false ->
  _can_accept_new_task s = false.
Proof.
  intros [Hcur (f & Hf & Hst)] Hnd. unfold _can_accept_new_task.
  rewrite Hcur, Hf. destruct f as [st' ex]; simpl in *; subst st'. exact Hnd.
Qed.

(** ** The slot invariant *)

Lemma slot_inv_init p a p' :
  __init__ env p = (Return a, p') -> slot_inv {| self := a; proc := p' |}.
Proof.
  unfold __init__. destruct (_get_config_from_env env); [|discriminate].
  destruct (get_context env); [|discriminate].
  intros [= <- <-]. split; simpl; auto.
Qed.

Lemma slot_inv_dispatch (s : State) event correlation_id :
  slot_inv s -> slot_inv (snd (dispatch event correlation_id s)).
Proof.
  intros Hinv. destruct (_can_accept_new_task s) eqn:Hacc.
  - rewrite (dispatch_idle _ _ _ Hacc). destruct Hinv as [Hmax Hslot].
    destruct (_work_queue (_executor (self s))) as [|w [|? ?]] eqn:Hq;
      destruct (_busy (_executor (self s))) as [|w' [|? ?]] eqn:Hb;
      try contradiction.
    + split; simpl; [exact Hmax|]. split; [reflexivity|]. simpl.
      eexists. split;
        [rewrite lookup_app_r by reflexivity; rewrite Nat.sub_diag; reflexivity
        |reflexivity].
    + apply slot_item_busy in Hslot; [congruence | reflexivity].
    + apply slot_item_busy in Hslot; [congruence | reflexivity].
  - rewrite (dispatch_busy _ _ _ Hacc). exact Hinv.
Qed.

Lemma slot_inv_worker_start (s : State) : slot_inv s -> slot_inv (worker_start s).
Proof.
  intros [Hmax Hslot]. unfold worker_start.
  destruct (_work_queue (_executor (self s))) as [|w [|? ?]] eqn:Hq;
    destruct (_busy (_executor (self s))) as [|w' [|? ?]] eqn:Hb;
    try contradiction; try (split; [exact Hmax | rewrite Hq, Hb; exact Hslot]).
  destruct Hslot as [Hcur (f & Hf & Hst)].
  rewrite Hmax. simpl. rewrite Hf.
  unfold Future_set_running_or_notify_cancel. rewrite Hst.
  split; simpl; [reflexivity|]. split; [exact Hcur|].
  eexists. split;
    [apply list_lookup_insert_eq; eapply lookup_lt_Some; eassumption
    |reflexivity].
Qed.

Lemma slot_inv_worker_finish (s : State) i :
  slot_inv s -> slot_inv (worker_finish env i s).
Proof.
  intros [Hmax Hslot]. unfold worker_finish.
  destruct (_work_queue (_executor (self s))) as [|w [|? ?]] eqn:Hq;
    destruct (_busy (_executor (self s))) as [|w' [|? ?]] eqn:Hb;
    try contradiction;
    try (simpl; split; [exact Hmax | rewrite Hq, Hb; exact Hslot]).
  destruct i as [|i]; simpl.
  - destruct Hslot as [Hcur (f & Hf & Hst)]. rewrite Hf.
    split; simpl; [exact Hmax | exact I].
  - split; [exact Hmax | rewrite Hq, Hb; exact Hslot].
Qed.

Lemma slot_inv_step (s : State) a : slot_inv s -> slot_inv (step env a s).
Proof.
  destruct a; simpl.
  - apply slot_inv_dispatch.
  - apply slot_inv_worker_start.
  - apply slot_inv_worker_finish.
Qed.

Lemma slot_inv_steps schedule (s : State) :
  slot_inv s -> slot_inv (steps env schedule s).
Proof.
  revert s. induction schedule as [|a schedule IH]; intros s Hinv; [exact Hinv|].
  apply IH, slot_inv_step, Hinv.
Qed.

Lemma slot_inv_bounds (s : State) :
  slot_inv s -> length (under_execution s) <= 1 /\ length (outstanding s) <= 1.
Proof.
  intros [_ Hslot]. unfold under_execution, outstanding.
  destruct (_work_queue (_executor (self s))) as [|w [|? ?]];
    destruct (_busy (_executor (self s))) as [|w' [|? ?]];
    try contradiction; simpl; lia.
Qed.

Lemma dispatch_cases (s : State) event correlation_id :
  (_can_accept_new_task s = false /\
   dispatch event correlation_id s = (Raise RequeueMessageError, s)) \/
  (_can_accept_new_task s = true /\
   fst (dispatch event correlation_id s) = Return tt).
Proof.
  destruct (_can_accept_new_task s) eqn:Hacc; [right | left]; split; auto.
  - rewrite (dispatch_idle _ _ _ Hacc). reflexivity.
  - apply dispatch_busy, Hacc.
Qed.

(** ** The claims about admission *)

(** C1. For every sequence of events delivered to the agent, and every
    interleaving of the worker thread with them, at most one event is under
    execution at any instant: the pool the agent creates has a single
    worker, it never holds more than one unfinished work item, and a
    delivery changes the pool only when the admission check succeeded, in
    which case the pool held no unfinished work. *)
Theorem C1_at_most_one_event_under_execution p a p' schedule :
  __init__ env p = (Return a, p') ->
  let s := steps env schedule {| self := a; proc := p' |} in
  _max_workers (_executor (self s)) = 1 /\
  length (under_execution s) <= 1 /\
  length (outstanding s) <= 1 /\
  forall event correlation_id,
    let s' := snd (dispatch event correlation_id s) in
    (_can_accept_new_task s = false /\ s' = s) \/
    (_can_accept_new_task s = true /\ outstanding s = [] /\
     under_execution s' = [] /\ length (outstanding s') = 1).
Proof.
  intros Hinit s.
  assert (Hinv : slot_inv s) by (apply slot_inv_steps, (slot_inv_init _ _ _ Hinit)).
  destruct (slot_inv_bounds _ Hinv) as [Hrun Hout].
  split; [exact (proj1 Hinv)|]. split; [exact Hrun|]. split; [exact Hout|].
  intros event correlation_id s'. subst s'.
  destruct (_can_accept_new_task s) eqn:Hacc.
  - right. split; [reflexivity|].
    rewrite (dispatch_idle _ _ _ Hacc). unfold outstanding, under_execution. simpl.
    destruct Hinv as [_ Hslot].
    destruct (_work_queue (_executor (self s))) as [|w [|? ?]];
      destruct (_busy (_executor (self s))) as [|w' [|? ?]];
      try contradiction.
    + repeat split.
    + apply slot_item_busy in Hslot; [congruence | reflexivity].
    + apply slot_item_busy in Hslot; [congruence | reflexivity].
  - left. split; [reflexivity|]. rewrite (dispatch_busy _ _ _ Hacc). reflexivity.
Qed.

(** C2. When the execution slot is busy, that is when a current task exists
    and its future is not done, dispatching an event raises the requeue
    signal and leaves the whole state as it was: the stored handle, the
    work queue, the futures and the recorded calls are unchanged, so no
    task is submitted. *)
Theorem C2_busy_slot_rejects_without_effect (s : State) event correlation_id t f :
  _current_task (self s) = Some t ->
  futures (proc s) !! t = Some f ->
  Future_done f = false ->
  dispatch event correlation_id s = (Raise RequeueMessageError, s).
Proof.
  intros Hcur Hf Hnd. apply dispatch_busy.
  unfold _can_accept_new_task. rewrite Hcur, Hf. exact Hnd.
Qed.

(** C3. Dispatching an event raises [RequeueMessageError] exactly when the
    admission check fails, and returns normally exactly when it succeeds;
    so a rejected event is never answered by a normal return (which is what
    the subscriber acknowledges) and an admitted event never raises the
    requeue signal.  Under the subscriber's callback contract the one call
    made on the broker for the message is a requeue when the check fails
    and an acknowledgement when it succeeds. *)
Theorem C3_requeue_iff_admission_fails (s : State) event correlation_id :
  (fst (dispatch event correlation_id s) = Raise RequeueMessageError
     <-> _can_accept_new_task s = false) /\
  (fst (dispatch event correlation_id s) = Return tt
     <-> _can_accept_new_task s = true) /\
  calls (proc (snd (deliver_all env dispatch [Deliver event correlation_id] s)))
    = (calls (proc s)
       ++ [if _can_accept_new_task s
           then call_ack correlation_id else call_requeue correlation_id])%list.
Proof.
  destruct (dispatch_cases s event correlation_id) as [[Hacc Hd] | [Hacc Hd]].
  - rewrite Hacc. simpl. rewrite Hd. simpl.
    repeat split; auto; discriminate.
  - rewrite Hacc. simpl.
    rewrite (dispatch_idle _ _ _ Hacc). simpl.
    repeat split; auto; discriminate.
Qed.

(** C4. Once the future the agent holds reports completion, the next
    admission check returns true.  Completion covers both endings of the
    task: whatever outcome is stored on the held future, a result or an
    exception, and in particular when the worker thread leaves
    [_handle_event] with whatever the handler did, the check succeeds and
    the next dispatch is accepted. *)
Theorem C4_completed_handle_frees_slot (s : State) t f :
  _current_task (self s) = Some t ->
  futures (proc s) !! t = Some f ->
  (Future_done f = true ->
     _can_accept_new_task s = true /\
     forall event correlation_id,
       fst (dispatch event correlation_id s) = Return tt) /\
  (forall r, _can_accept_new_task (set_future t (Future_set_outcome r f) s) = true) /\
  (forall i w, _busy (_executor (self s)) !! i = Some w -> wi_future w = t ->
     _can_accept_new_task (worker_finish env i s) = true).
Proof.
  intros Hcur Hf. split; [|split].
  - intros Hdone.
    assert (Hacc : _can_accept_new_task s = true)
      by (unfold _can_accept_new_task; rewrite Hcur, Hf; exact Hdone).
    split; [exact Hacc|]. intros event correlation_id.
    rewrite (dispatch_idle _ _ _ Hacc). reflexivity.
  - intros r. unfold _can_accept_new_task, set_future. simpl. rewrite Hcur.
    rewrite list_lookup_insert_eq by (eapply lookup_lt_Some; exact Hf).
    destruct r; reflexivity.
  - intros i w Hw Hwt. unfold worker_finish. rewrite Hw, Hwt, Hf.
    unfold _can_accept_new_task, set_future, set_executor. simpl. rewrite Hcur.
    rewrite list_lookup_insert_eq by (eapply lookup_lt_Some; exact Hf).
    destruct (_handle_event env (self s) (wi_event w) (wi_correlation_id w));
      reflexivity.
Qed.

(** C5. When the admission check succeeds, dispatch returns normally and
    submits exactly one task: the work queue grows by one item, for a new
    pending future, which becomes the agent's current task; nothing else
    changes.  Running that item is the call of the event handler on the
    agent's context, the event and the correlation identifier, and when the
    pool was empty the worker stores the outcome of precisely that call on
    the future the agent holds. *)
Theorem C5_admitted_event_is_submitted (s : State) event correlation_id :
  _can_accept_new_task s = true ->
  let s' := snd (dispatch event correlation_id s) in
  let w := {| wi_future := length (futures (proc s)); wi_event := event;
              wi_correlation_id := correlation_id |} in
  fst (dispatch event correlation_id s) = Return tt /\
  _work_queue (_executor (self s'))
    = (_work_queue (_executor (self s)) ++ [w])%list /\
  _busy (_executor (self s')) = _busy (_executor (self s)) /\
  _current_task (self s') = Some (wi_future w) /\
  futures (proc s')
    = (futures (proc s) ++ [{| _state := PENDING; _exception := None |}])%list /\
  futures (proc s') !! wi_future w
    = Some {| _state := PENDING; _exception := None |} /\
  _context (self s') = _context (self s) /\
  calls (proc s') = calls (proc s) /\
  _handle_event env (self s') (wi_event w) (wi_correlation_id w)
    = handle_event env (_context (self s)) event correlation_id /\
  (slot_inv s ->
   futures (proc (worker_finish env 0 (worker_start s'))) !! wi_future w
     = Some (Future_set_outcome
               (handle_event env (_context (self s)) event correlation_id)
               {| _state := RUNNING; _exception := None |})).
Proof.
  intros Hacc s' w. subst s' w. rewrite (dispatch_idle _ _ _ Hacc). simpl.
  assert (Hnew : (futures (proc s)
                    ++ [{| _state := PENDING; _exception := None |}])%list
                   !! length (futures (proc s))
                 = Some {| _state := PENDING; _exception := None |}).
  { rewrite lookup_app_r by reflexivity. rewrite Nat.sub_diag. reflexivity. }
  repeat (split; [reflexivity || exact Hnew|]).
  intros [Hmax Hslot].
  destruct (_work_queue (_executor (self s))) as [|w [|? ?]] eqn:Hq;
    destruct (_busy (_executor (self s))) as [|w' [|? ?]] eqn:Hb;
    try contradiction;
    try (apply slot_item_busy in Hslot; [congruence | reflexivity]).
  unfold worker_finish, worker_start. simpl. rewrite Hmax. simpl.
  rewrite Hnew. simpl.
  rewrite list_lookup_insert_eq by (rewrite length_app; simpl; lia). simpl.
  rewrite list_lookup_insert_eq
    by (rewrite length_insert, length_app; simpl; lia).
  reflexivity.
Qed.

(** C9. A freshly constructed agent has no current task, so its admission
    check returns true and the first event dispatched to it is accepted:
    dispatch returns normally and does not raise the requeue signal. *)
Theorem C9_fresh_agent_accepts_first_event p a p' :
  __init__ env p = (Return a, p') ->
  _current_task a = None /\
  _can_accept_new_task {| self := a; proc := p' |} = true /\
  forall event correlation_id,
    fst (dispatch event correlation_id {| self := a; proc := p' |}) = Return tt /\
    fst (dispatch event correlation_id {| self := a; proc := p' |})
      <> Raise RequeueMessageError.
Proof.
  unfold __init__. destruct (_get_config_from_env env); [|discriminate].
  destruct (get_context env); [|discriminate].
  intros [= <- <-]. split; [reflexivity|]. split; [reflexivity|].
  intros event correlation_id. rewrite dispatch_idle by reflexivity.
  split; [reflexivity | discriminate].
Qed.

(** ** The connection lifecycle *)

Lemma close_calls_record c (p : Process) :
  close_calls (record_to c p) = close_calls p + (if is_close c then 1 else 0).
Proof.
  unfold close_calls, record_to. simpl. rewrite count_occ_app. simpl.
  destruct c; simpl; repeat case_decide; congruence || lia.
Qed.

Lemma close_calls_print line (p : Process) :
  close_calls (print_to line p) = close_calls p.
Proof. reflexivity. Qed.

Lemma worker_start_calls (s : State) : calls (proc (worker_start s)) = calls (proc s).
Proof.
  unfold worker_start.
  destruct (_work_queue (_executor (self s))); [reflexivity|].
  case_decide; [|reflexivity].
  destruct (futures (proc s) !! wi_future w) as [f|]; [|reflexivity].
  destruct (Future_set_running_or_notify_cancel f). reflexivity.
Qed.

Lemma worker_finish_calls (s : State) i :
  calls (proc (worker_finish env i s)) = calls (proc s).
Proof.
  unfold worker_finish.
  destruct (_busy (_executor (self s)) !! i) as [w|]; [|reflexivity].
  destruct (futures (proc s) !! wi_future w); reflexivity.
Qed.

(** The callback the agent registers never makes [consume] fail, and the
    consumption loop itself closes nothing. *)
Lemma deliver_all_dispatch schedule (s : State) :
  fst (deliver_all env dispatch schedule s) = Return tt /\
  close_calls (proc (snd (deliver_all env dispatch schedule s)))
    = close_calls (proc s).
Proof.
  revert s. induction schedule as [|a schedule IH]; intros s; [split; reflexivity|].
  destruct a as [event correlation_id | | i]; simpl.
  - destruct (dispatch_cases s event correlation_id) as [[Hacc Hd] | [Hacc Hd]].
    + rewrite Hd. unfold mbind, M_bind, bind, record. simpl.
      destruct (IH {| self := self s;
                      proc := record_to (call_requeue correlation_id) (proc s) |})
        as [Hr Hc].
      split; [exact Hr|]. rewrite Hc. simpl. rewrite close_calls_record. simpl. lia.
    + rewrite (dispatch_idle _ _ _ Hacc). unfold mbind, M_bind, bind, record. simpl.
      match goal with |- fst (deliver_all _ _ _ ?s1) = _ /\ _ =>
        destruct (IH s1) as [Hr Hc] end.
      split; [exact Hr|]. rewrite Hc. simpl. rewrite close_calls_record. simpl.
      unfold close_calls. simpl. lia.
  - destruct (IH (worker_start s)) as [Hr Hc]. split; [exact Hr|].
    rewrite Hc. unfold close_calls. rewrite worker_start_calls. reflexivity.
  - destruct (IH (worker_finish env i s)) as [Hr Hc]. split; [exact Hr|].
    rewrite Hc. unfold close_calls. rewrite worker_finish_calls. reflexivity.
Qed.

(** When the client and the subscriber are constructed, the [try] block
    ends as [consume] ends, with the subscriber bound and nothing closed. *)
Lemma listen_try_opened (s : State) :
  RabbitMQClient_init env (broker_url (_config (self s))) = Return tt ->
  Subscriber_init env = Return tt ->
  fst (_listen_try env s)
    = (Some {| client := {| client_url := broker_url (_config (self s)) |} |},
       consume_end env) /\
  close_calls (proc (snd (_listen_try env s))) = close_calls (proc s).
Proof.
  intros Hclient Hsub. unfold _listen_try, extern. rewrite Hclient, Hsub. simpl.
  unfold Subscriber_consume, mbind, M_bind, bind, print, record, ends. simpl.
  match goal with |- context [deliver_all _ _ _ ?s1] =>
    destruct (deliver_all_dispatch (consume_schedule env) s1) as [Hr Hc];
    destruct (deliver_all env dispatch (consume_schedule env) s1)
      as [r s2] eqn:Hd end.
  simpl in Hr, Hc. subst r. simpl. split; [reflexivity|].
  rewrite Hc. simpl.
  repeat (rewrite close_calls_record || rewrite close_calls_print). simpl. lia.
Qed.

(** When either constructor raises, the [try] block ends with that
    exception, no subscriber, and nothing closed. *)
Lemma listen_try_unopened (s : State) e :
  RabbitMQClient_init env (broker_url (_config (self s))) = Raise e \/
  (RabbitMQClient_init env (broker_url (_config (self s))) = Return tt /\
   Subscriber_init env = Raise e) ->
  fst (_listen_try env s) = (None, Raise e) /\
  close_calls (proc (snd (_listen_try env s))) = close_calls (proc s).
Proof.
  intros [Hclient | [Hclient Hsub]]; unfold _listen_try, extern.
  - rewrite Hclient. simpl. split; [reflexivity|].
    rewrite close_calls_record. simpl. lia.
  - rewrite Hclient, Hsub. simpl. split; [reflexivity|].
    rewrite !close_calls_record. simpl. lia.
Qed.

Lemma listen_except_spec (r : result unit) (s : State) :
  fst (_listen_except r s)
    = match r with
      | Raise e => if caught_by_listen e then Return tt else Raise e
      | Return a => Return a
      end /\
  calls (proc (snd (_listen_except r s))) = calls (proc s).
Proof. destruct r as [a|e]; [|destruct e]; split; reflexivity. Qed.

Lemma close_subscriber_some sub (s : State) :
  close_calls (proc (snd (_close_subscriber env (Some sub) s)))
    = close_calls (proc s) + 1 /\
  fst (_close_subscriber env (Some sub) s)
    = match Subscriber_close env with
      | Raise (SubscriberError _) => Return tt
      | r => r
      end.
Proof.
  unfold _close_subscriber, extern.
  destruct (Subscriber_close env) as [[]|e]; [|destruct e]; simpl;
    (split; [|reflexivity]);
    repeat (rewrite close_calls_record || rewrite close_calls_print);
    reflexivity.
Qed.

Lemma listen_unfold (s : State) :
  _listen env s
    = finally (fst (_listen_except (snd (fst (_listen_try env s)))
                      (snd (_listen_try env s))))
        (_close_subscriber env (fst (fst (_listen_try env s))))
        (snd (_listen_except (snd (fst (_listen_try env s)))
                (snd (_listen_try env s)))).
Proof.
  unfold _listen. destruct (_listen_try env s) as [[subscriber r] s1]. simpl.
  destruct (_listen_except r s1) as [r' s2]. reflexivity.
Qed.

Lemma run_listen (s : State) :
  fst (run env s)
    = fst (_listen env (snd (print "Opening connection to GX Cloud" s))) /\
  close_calls (proc (snd (run env s)))
    = close_calls
        (proc (snd (_listen env (snd (print "Opening connection to GX Cloud" s))))).
Proof.
  unfold run, mbind, M_bind, bind. simpl.
  destruct (_listen env _) as [[[]|e] s1]; split; reflexivity.
Qed.

(** How [_listen] ends once the subscription is open: one [close] call,
    and the outcome is that of the [except] clauses unless [close] raises
    something other than [SubscriberError]. *)
Lemma listen_opened (s : State) :
  RabbitMQClient_init env (broker_url (_config (self s))) = Return tt ->
  Subscriber_init env = Return tt ->
  close_calls (proc (snd (_listen env s))) = close_calls (proc s) + 1 /\
  fst (_listen env s)
    = match Subscriber_close env with
      | Return _ | Raise (SubscriberError _) =>
          match consume_end env with
          | Raise e => if caught_by_listen e then Return tt else Raise e
          | Return a => Return a
          end
      | Raise e' => Raise e'
      end.
Proof.
  intros Hclient Hsub. rewrite listen_unfold.
  destruct (listen_try_opened s Hclient Hsub) as [Htry Hc].
  destruct (_listen_try env s) as [[subscriber r] s1]. cbn [fst snd] in *.
  injection Htry as -> ->.
  destruct (listen_except_spec (consume_end env) s1) as [Hr Hcalls].
  destruct (_listen_except (consume_end env) s1) as [r' s2]. cbn [fst snd] in *.
  subst r'.
  match goal with |- context [_close_subscriber env (Some ?sub)] =>
    destruct (close_subscriber_some sub s2) as [Hcc Hcr];
    unfold finally;
    destruct (_close_subscriber env (Some sub) s2) as [rc s3] end.
  cbn [fst snd] in *. subst rc.
  assert (Hs3 : close_calls (proc s3) = close_calls (proc s) + 1).
  { rewrite Hcc. unfold close_calls in *. rewrite Hcalls, Hc. reflexivity. }
  destruct (Subscriber_close env) as [[]|e']; [|destruct e']; cbn [fst snd];
    split; auto.
Qed.

(** ** The claims about the connection lifecycle *)

(** C6 (amended). When [close] raises [SubscriberError] during shutdown,
    the close step records the call, prints the two log lines and returns:
    the error is not propagated.  The outcome pending when the [finally]
    clause runs is therefore kept, and [_listen] ends as the original
    termination cause and the [except] clauses alone decide. *)
Theorem C6_subscriber_error_on_close_is_swallowed (s : State) subscriber msg :
  Subscriber_close env = Raise (SubscriberError msg) ->
  _close_subscriber env (Some subscriber) s
    = (Return tt,
       {| self := self s;
          proc := print_to msg
                    (print_to "Subscriber encountered an error while closing:"
                       (record_to call_close (proc s))) |}) /\
  (forall r : result unit,
     fst (finally r (_close_subscriber env (Some subscriber)) s) = r) /\
  fst (_listen env s)
    = match snd (fst (_listen_try env s)) with
      | Raise e => if caught_by_listen e then Return tt else Raise e
      | Return a => Return a
      end.
Proof.
  intros Hclose.
  assert (Hstep : forall sub (s0 : State),
             fst (_close_subscriber env sub s0) = Return tt).
  { intros [sub|] s0; [|reflexivity].
    unfold _close_subscriber, extern. rewrite Hclose. reflexivity. }
  split; [|split].
  - unfold _close_subscriber, extern. rewrite Hclose. reflexivity.
  - intros r. unfold finally.
    specialize (Hstep (Some subscriber) s).
    destruct (_close_subscriber env (Some subscriber) s) as [rc s']. simpl in Hstep.
    subst rc. reflexivity.
  - rewrite listen_unfold.
    destruct (_listen_try env s) as [[sub r] s1]. simpl.
    destruct (listen_except_spec r s1) as [Hr _].
    destruct (_listen_except r s1) as [r' s2]. simpl in *. subst r'.
    unfold finally. specialize (Hstep sub s2).
    destruct (_close_subscriber env sub s2) as [rc s3]. simpl in Hstep. subst rc.
    reflexivity.
Qed.

(** C7 (amended). When the client and the subscriber were constructed and
    [consume] ends with [KeyboardInterrupt], [SubscriberError] or
    [ClientError], exactly one [close] call is made on the subscriber
    during [run], and [run] returns normally provided that this [close]
    call returns or raises [SubscriberError]. *)
Theorem C7_shutdown_closes_once_and_returns (s : State) e :
  RabbitMQClient_init env (broker_url (_config (self s))) = Return tt ->
  Subscriber_init env = Return tt ->
  consume_end env = Raise e ->
  (e = KeyboardInterrupt \/ (exists msg, e = SubscriberError msg)
   \/ (exists msg, e = ClientError msg)) ->
  close_calls (proc (snd (run env s))) = close_calls (proc s) + 1 /\
  ((Subscriber_close env = Return tt
    \/ exists msg, Subscriber_close env = Raise (SubscriberError msg)) ->
   fst (run env s) = Return tt).
Proof.
  intros Hclient Hsub Hend He.
  assert (Hcaught : caught_by_listen e = true)
    by (destruct He as [-> | [[msg ->] | [msg ->]]]; reflexivity).
  destruct (run_listen s) as [Hr Hc]. rewrite Hr, Hc.
  destruct (listen_opened (snd (print "Opening connection to GX Cloud" s))
              Hclient Hsub) as [Hcc Hlr].
  rewrite Hcc, Hlr, Hend, Hcaught. split; [reflexivity|].
  intros [-> | [msg ->]]; reflexivity.
Qed.

(** C8. If [BROKER_URL] or [GE_CLOUD_ORGANIZATION_ID] is absent from the
    environment, construction raises [GXAgentError] right after its first
    line of output: no call has been made on any collaborator, so no data
    context was loaded, no client or subscriber was constructed and no
    connection was attempted. *)
Theorem C8_missing_configuration_fails_fast (p : Process) :
  environ env !! "BROKER_URL" = None \/
  environ env !! "GE_CLOUD_ORGANIZATION_ID" = None ->
  (exists msg, fst (__init__ env p) = Raise (GXAgentError msg)) /\
  snd (__init__ env p) = print_to "Initializing GX-Agent" p /\
  calls (snd (__init__ env p)) = calls p /\
  filter (fun c => is_connection_call c = true) (calls (snd (__init__ env p)))
    = filter (fun c => is_connection_call c = true) (calls p).
Proof.
  intros Hmissing. unfold __init__, _get_config_from_env.
  destruct (environ env !! "BROKER_URL") as [url|] eqn:Hurl.
  - destruct Hmissing as [? | Horg]; [discriminate|]. rewrite Horg. simpl.
    split; [eexists; reflexivity | repeat split].
  - simpl. split; [eexists; reflexivity | repeat split].
Qed.

(** C10. The close step is total on an absent subscriber: it returns at
    once, making no [close] call and changing nothing, so a [finally]
    clause running it keeps the pending outcome.  When the client or the
    subscriber constructor raises, [subscriber] is still [None] when the
    [finally] clause runs, no [close] call is made during [_listen], and
    [_listen] ends as the constructor's exception and the [except] clauses
    decide. *)
Theorem C10_close_is_total_on_absent_subscriber (s : State) :
  _close_subscriber env None s = (Return tt, s) /\
  (forall r : result unit, finally r (_close_subscriber env None) s = (r, s)) /\
  (forall e,
     RabbitMQClient_init env (broker_url (_config (self s))) = Raise e \/
     (RabbitMQClient_init env (broker_url (_config (self s))) = Return tt /\
      Subscriber_init env = Raise e) ->
     fst (fst (_listen_try env s)) = None /\
     close_calls (proc (snd (_listen env s))) = close_calls (proc s) /\
     fst (_listen env s) = if caught_by_listen e then Return tt else Raise e).
Proof.
  split; [reflexivity|]. split; [reflexivity|].
  intros e Hfail. rewrite listen_unfold.
  destruct (listen_try_unopened s e Hfail) as [Htry Hc].
  destruct (_listen_try env s) as [[subscriber r] s1]. simpl in *.
  injection Htry as -> ->.
  destruct (listen_except_spec (Raise e) s1) as [Hr Hcalls].
  destruct (_listen_except (Raise e) s1) as [r' s2]. simpl in *. subst r'.
  split; [reflexivity|]. split; [|reflexivity].
  unfold close_calls. rewrite Hcalls. exact Hc.
Qed.

End Properties.

(** * Further properties of the agent *)

Section Further.

Context {Event CloudDataContext : Type}.
Variable env : Env Event CloudDataContext.

Abbreviation State' := (State Event CloudDataContext).
Abbreviation dispatch' := (@_handle_event_as_thread Event CloudDataContext).

(** ** The pool in a state that satisfies the slot invariant *)

Lemma slot_pool_cases (s : State') :
  slot_inv s ->
  (_work_queue (_executor (self s)) = [] /\ _busy (_executor (self s)) = []) \/
  (exists w, _work_queue (_executor (self s)) = [w] /\
             _busy (_executor (self s)) = [] /\ slot_item s w PENDING) \/
  (exists w, _work_queue (_executor (self s)) = [] /\
             _busy (_executor (self s)) = [w] /\ slot_item s w RUNNING).
Proof.
  intros [_ Hslot].
  destruct (_work_queue (_executor (self s))) as [|w [|? ?]];
    destruct (_busy (_executor (self s))) as [|w' [|? ?]];
    try contradiction; eauto 6.
Qed.

Lemma worker_start_idle (s : State') :
  _work_queue (_executor (self s)) = [] -> worker_start s = s.
Proof. intros Hq. unfold worker_start. rewrite Hq. reflexivity. Qed.

Lemma worker_start_queued (s : State') w :
  _max_workers (_executor (self s)) = 1 ->
  _work_queue (_executor (self s)) = [w] ->
  _busy (_executor (self s)) = [] ->
  slot_item s w PENDING ->
  exists f,
    futures (proc s) !! wi_future w = Some f /\
    worker_start s
      = set_future (wi_future w)
          {| _state := RUNNING; _exception := _exception f |}
          (set_executor {| _max_workers := 1; _work_queue := [];
                           _busy := [w] |} s).
Proof.
  intros Hmax Hq Hb [_ (f & Hf & Hst)]. exists f. split; [exact Hf|].
  unfold worker_start. rewrite Hq, Hb, Hmax. simpl. rewrite Hf.
  unfold Future_set_running_or_notify_cancel. rewrite Hst. reflexivity.
Qed.

Lemma worker_finish_idle (s : State') i :
  _busy (_executor (self s)) !! i = None -> worker_finish env i s = s.
Proof. intros Hb. unfold worker_finish. rewrite Hb. reflexivity. Qed.

Lemma worker_finish_running (s : State') i w f :
  _busy (_executor (self s)) !! i = Some w ->
  futures (proc s) !! wi_future w = Some f ->
  worker_finish env i s
    = set_future (wi_future w)
        (Future_set_outcome
           (_handle_event env (self s) (wi_event w) (wi_correlation_id w)) f)
        (set_executor
           {| _max_workers := _max_workers (_executor (self s));
              _work_queue := _work_queue (_executor (self s));
              _busy := delete i (_busy (_executor (self s))) |} s).
Proof. intros Hb Hf. unfold worker_finish. rewrite Hb, Hf. reflexivity. Qed.

Lemma pool_busy_rejects (s : State') :
  slot_inv s -> outstanding s <> [] -> _can_accept_new_task s = false.
Proof.
  intros Hinv Hout.
  destruct (slot_pool_cases s Hinv) as [[Hq Hb] | [(w & Hq & Hb & Hw) | (w & Hq & Hb & Hw)]].
  - unfold outstanding in Hout. rewrite Hq, Hb in Hout. contradiction.
  - eapply slot_item_busy; [exact Hw | reflexivity].
  - eapply slot_item_busy; [exact Hw | reflexivity].
Qed.

Lemma slot_exact_init p a p' :
  __init__ env p = (Return a, p') -> slot_exact {| self := a; proc := p' |}.
Proof.
  intros Hinit. split; [exact (slot_inv_init env _ _ _ Hinit)|].
  revert Hinit. unfold __init__.
  destruct (_get_config_from_env env); [|discriminate].
  destruct (get_context env); [|discriminate].
  intros [= <- <-] _. reflexivity.
Qed.

Lemma slot_exact_step (s : State') a : slot_exact s -> slot_exact (step env a s).
Proof.
  intros [Hinv Hfree]. split; [apply slot_inv_step, Hinv|].
  destruct a as [event correlation_id | | i]; simpl.
  - destruct (_can_accept_new_task s) eqn:Hacc.
    + rewrite (dispatch_idle _ _ _ Hacc). unfold outstanding. simpl.
      intros Hnil. apply app_eq_nil in Hnil as [Hnil _].
      apply app_eq_nil in Hnil as [_ Hnil]. discriminate.
    + rewrite (dispatch_busy _ _ _ Hacc). simpl. rewrite Hacc. exact Hfree.
  - destruct (slot_pool_cases s Hinv)
      as [[Hq Hb] | [(w & Hq & Hb & Hw) | (w & Hq & Hb & Hw)]].
    + rewrite (worker_start_idle s Hq). exact Hfree.
    + destruct (worker_start_queued s w (proj1 Hinv) Hq Hb Hw) as (f & _ & ->).
      unfold outstanding. simpl. discriminate.
    + rewrite (worker_start_idle s Hq). exact Hfree.
  - destruct (slot_pool_cases s Hinv)
      as [[Hq Hb] | [(w & Hq & Hb & Hw) | (w & Hq & Hb & Hw)]].
    + rewrite worker_finish_idle by (rewrite Hb; reflexivity). exact Hfree.
    + rewrite worker_finish_idle by (rewrite Hb; reflexivity). exact Hfree.
    + destruct i as [|i].
      * destruct Hw as [Hcur (f & Hf & Hst)].
        rewrite (worker_finish_running s 0 w f) by (rewrite ?Hb; auto).
        intros _. unfold _can_accept_new_task, set_future, set_executor. simpl.
        rewrite Hcur.
        rewrite list_lookup_insert_eq by (eapply lookup_lt_Some; exact Hf).
        destruct (_handle_event env (self s) (wi_event w) (wi_correlation_id w));
          reflexivity.
      * rewrite worker_finish_idle by (rewrite Hb; reflexivity). exact Hfree.
Qed.

Lemma slot_exact_steps schedule (s : State') :
  slot_exact s -> slot_exact (steps env schedule s).
Proof.
  revert s. induction schedule as [|a schedule IH]; intros s Hs; [exact Hs|].
  apply IH, slot_exact_step, Hs.
Qed.

(** One turn of the worker thread empties the pool. *)
Lemma worker_turn_empties (s : State') :
  slot_inv s -> outstanding (worker_finish env 0 (worker_start s)) = [].
Proof.
  intros Hinv.
  destruct (slot_pool_cases s Hinv)
    as [[Hq Hb] | [(w & Hq & Hb & Hw) | (w & Hq & Hb & Hw)]].
  - rewrite (worker_start_idle s Hq).
    rewrite worker_finish_idle by (rewrite Hb; reflexivity).
    unfold outstanding. rewrite Hq, Hb. reflexivity.
  - destruct (worker_start_queued s w (proj1 Hinv) Hq Hb Hw) as (f & Hf & ->).
    erewrite worker_finish_running; [reflexivity | reflexivity |].
    simpl. apply list_lookup_insert_eq. eapply lookup_lt_Some; exact Hf.
  - rewrite (worker_start_idle s Hq). destruct Hw as [_ (f & Hf & _)].
    rewrite (worker_finish_running s 0 w f) by (rewrite ?Hb; auto).
    unfold outstanding. simpl. rewrite Hq, Hb. reflexivity.
Qed.


(** ** Admission, continued *)

(** X1. In every state the agent can reach from its construction, the
    admission check is exact: it succeeds if and only if the pool holds no
    unfinished work item, queued or running. *)
Theorem X1_admission_check_is_exact p a p' schedule :
  __init__ env p = (Return a, p') ->
  let s := steps env schedule {| self := a; proc := p' |} in
  _can_accept_new_task s = true <-> outstanding s = [].
Proof.
  intros Hinit s.
  assert (Hex : slot_exact s)
    by (apply slot_exact_steps, (slot_exact_init _ _ _ Hinit)).
  destruct Hex as [Hinv Hfree]. split; [|exact Hfree].
  intros Hacc. destruct (outstanding s) eqn:Hout; [reflexivity|].
  rewrite (pool_busy_rejects s Hinv) in Hacc; [discriminate|].
  rewrite Hout. discriminate.
Qed.

(** X2. No lock-up: from every state the agent can reach, one turn of the
    worker thread (pick up the queued item if there is one, run it to its
    end, whatever the handler does) makes the admission check succeed, so
    the next event delivered is accepted. *)
Theorem X2_worker_turn_frees_slot p a p' schedule :
  __init__ env p = (Return a, p') ->
  let s := steps env (schedule ++ [WorkerStart; WorkerFinish 0])
             {| self := a; proc := p' |} in
  _can_accept_new_task s = true /\
  forall event correlation_id,
    fst (dispatch' event correlation_id s) = Return tt.
Proof.
  intros Hinit s.
  assert (Hacc : _can_accept_new_task s = true).
  { assert (Hex : slot_exact s)
      by (apply slot_exact_steps, (slot_exact_init _ _ _ Hinit)).
    apply Hex. subst s. unfold steps. rewrite foldl_app. simpl.
    apply worker_turn_empties, slot_inv_steps, (slot_inv_init env _ _ _ Hinit). }
  split; [exact Hacc|]. intros event correlation_id.
  rewrite (dispatch_idle _ _ _ Hacc). reflexivity.
Qed.

(** X3. A burst of deliveries while the slot is busy changes nothing: when
    the admission check fails, any sequence of deliveries during which the
    worker thread does not move leaves the state as it was, and each of its
    events is rejected with the requeue signal. *)
Theorem X3_burst_while_busy_is_rejected (s : State') schedule :
  _can_accept_new_task s = false ->
  Forall (fun a => is_delivery a = true) schedule ->
  steps env schedule s = s /\
  forall event correlation_id,
    In (Deliver event correlation_id) schedule ->
    dispatch' event correlation_id s = (Raise RequeueMessageError, s).
Proof.
  intros Hbusy Hall. split.
  - induction Hall as [|a schedule Ha _ IH]; [reflexivity|].
    destruct a as [event correlation_id | |]; try discriminate.
    unfold steps in *. simpl. rewrite (dispatch_busy _ _ _ Hbusy). exact IH.
  - intros event correlation_id _. apply dispatch_busy, Hbusy.
Qed.

(** X4. Accept, reject, accept: from a state the agent can reach in which
    the admission check succeeds, a first event is accepted; a second event
    is then rejected without effect, both before and after the worker
    thread has picked up the first; and once the worker has finished the
    first, a third event is accepted. *)
Theorem X4_accept_reject_accept p a p' schedule e1 c1 e2 c2 e3 c3 :
  __init__ env p = (Return a, p') ->
  let s := steps env schedule {| self := a; proc := p' |} in
  _can_accept_new_task s = true ->
  let s1 := snd (dispatch' e1 c1 s) in
  fst (dispatch' e1 c1 s) = Return tt /\
  dispatch' e2 c2 s1 = (Raise RequeueMessageError, s1) /\
  dispatch' e2 c2 (worker_start s1)
    = (Raise RequeueMessageError, worker_start s1) /\
  fst (dispatch' e3 c3 (worker_finish env 0 (worker_start s1))) = Return tt.
Proof.
  intros Hinit s Hacc s1.
  assert (Hinv : slot_inv s)
    by (apply slot_inv_steps, (slot_inv_init env _ _ _ Hinit)).
  assert (Hex1 : slot_exact s1).
  { apply (slot_exact_step s (Deliver e1 c1)).
    apply slot_exact_steps, (slot_exact_init _ _ _ Hinit). }
  assert (Hout1 : outstanding s1 <> []).
  { subst s1. rewrite (dispatch_idle _ _ _ Hacc). unfold outstanding. simpl.
    intros Hnil. apply app_eq_nil in Hnil as [Hnil _].
    apply app_eq_nil in Hnil as [_ Hnil]. discriminate. }
  split; [rewrite (dispatch_idle _ _ _ Hacc); reflexivity|].
  split; [apply dispatch_busy, pool_busy_rejects; [apply Hex1 | exact Hout1]|].
  split.
  - apply dispatch_busy, pool_busy_rejects.
    + apply slot_inv_worker_start, Hex1.
    + destruct (slot_pool_cases s1 (proj1 Hex1))
        as [[Hq Hb] | [(w & Hq & Hb & Hw) | (w & Hq & Hb & Hw)]].
      * unfold outstanding in Hout1. rewrite Hq, Hb in Hout1. contradiction.
      * destruct (worker_start_queued s1 w (proj1 (proj1 Hex1)) Hq Hb Hw)
          as (f & _ & ->).
        unfold outstanding. simpl. discriminate.
      * rewrite (worker_start_idle s1 Hq). exact Hout1.
  - assert (Hex3 : slot_exact (worker_finish env 0 (worker_start s1))).
    { apply (slot_exact_step _ (WorkerFinish 0)).
      apply (slot_exact_step _ WorkerStart). exact Hex1. }
    rewrite dispatch_idle; [reflexivity|].
    apply Hex3, worker_turn_empties, Hex1.
Qed.

(** X5. Dispatch touches nothing but the slot: whether the event is
    accepted or rejected, every future already in the store is as it was,
    the reference a new future would get was not in use, and the
    configuration, the context, the number of workers, the running items,
    the output and the recorded calls are unchanged. *)
Theorem X5_dispatch_frame (s : State') event correlation_id :
  let s' := snd (_handle_event_as_thread event correlation_id s) in
  (forall t f, futures (proc s) !! t = Some f -> futures (proc s') !! t = Some f) /\
  futures (proc s) !! length (futures (proc s)) = None /\
  _config (self s') = _config (self s) /\
  _context (self s') = _context (self s) /\
  _max_workers (_executor (self s')) = _max_workers (_executor (self s)) /\
  _busy (_executor (self s')) = _busy (_executor (self s)) /\
  stdout (proc s') = stdout (proc s) /\
  calls (proc s') = calls (proc s).
Proof.
  intros s'. subst s'.
  assert (Hfresh : futures (proc s) !! length (futures (proc s)) = None)
    by (apply lookup_ge_None; lia).
  destruct (_can_accept_new_task s) eqn:Hacc.
  - rewrite (dispatch_idle _ _ _ Hacc). simpl.
    split; [|repeat split; auto].
    intros t f Hf. apply lookup_app_l_Some, Hf.
  - rewrite (dispatch_busy _ _ _ Hacc). simpl. repeat split; auto.
Qed.



(** ** Construction, continued *)


(** X9. [_get_config_from_env] raises [GXAgentError] if and only if one of
    the two variables is absent; a variable that is present but does not
    validate is reported by another error.  [BROKER_URL] is looked up
    first, so it is the one named when both are absent. *)
Theorem X9_config_error_iff_variable_absent :
  ((exists msg, _get_config_from_env env = Raise (GXAgentError msg)) <->
   (environ env !! "BROKER_URL" = None \/
    environ env !! "GE_CLOUD_ORGANIZATION_ID" = None)) /\
  (environ env !! "BROKER_URL" = None ->
   _get_config_from_env env
     = Raise (GXAgentError "Missing required environment variable: BROKER_URL")).
Proof.
  unfold _get_config_from_env, GXAgentConfig_init.
  destruct (environ env !! "BROKER_URL") as [url|];
    destruct (environ env !! "GE_CLOUD_ORGANIZATION_ID") as [org|];
    try destruct (AmqpDsn_valid env url);
    (split; [split|]);
    try (intros [msg Hmsg]; discriminate);
    try (intros [? | ?]; discriminate);
    try discriminate; eauto.
Qed.

(** X10. Every way construction can fail: either reading the
    configuration raised, and then nothing but the first line was printed
    and no collaborator was called, or [get_context] raised, after the
    configuration was read and with that one call recorded.  In no case,
    success included, does construction call the client, the subscriber,
    [consume] or [close]. *)
Theorem X10_construction_failures (p : Process) :
  (forall e, fst (__init__ env p) = Raise e ->
     (_get_config_from_env env = Raise e /\
      snd (__init__ env p) = print_to "Initializing GX-Agent" p) \/
     ((exists config, _get_config_from_env env = Return config) /\
      get_context env = Raise e /\
      calls (snd (__init__ env p)) = (calls p ++ [call_get_context])%list)) /\
  filter (fun c => is_connection_call c = true) (calls (snd (__init__ env p)))
    = filter (fun c => is_connection_call c = true) (calls p).
Proof.
  unfold __init__.
  destruct (_get_config_from_env env) as [config|e0]; simpl.
  - destruct (get_context env) as [context|e1]; simpl.
    + split; [discriminate|]. rewrite filter_app. simpl.
      rewrite filter_cons_False by discriminate. rewrite filter_nil.
      apply app_nil_r.
    + split.
      * intros e [= <-]. right. eauto.
      * rewrite filter_app. simpl.
        rewrite filter_cons_False by discriminate. rewrite filter_nil.
        apply app_nil_r.
  - split; [|reflexivity]. intros e [= <-]. left. split; reflexivity.
Qed.

(** ** The connection lifecycle, continued *)

Lemma deliver_all_calls schedule (s : State') :
  exists answers,
    calls (proc (snd (deliver_all env dispatch' schedule s)))
      = (calls (proc s) ++ answers)%list /\
    Forall (fun c => is_answer c = true) answers.
Proof.
  revert s. induction schedule as [|a schedule IH]; intros s.
  { exists []. split; [symmetry; apply app_nil_r | constructor]. }
  destruct a as [event correlation_id | | i]; simpl.
  - destruct (dispatch_cases s event correlation_id) as [[Hacc Hd] | [Hacc Hd]].
    + rewrite Hd. unfold mbind, M_bind, bind, record. simpl.
      destruct (IH {| self := self s;
                      proc := record_to (call_requeue correlation_id) (proc s) |})
        as (answers & Hc & Hall).
      exists (call_requeue correlation_id :: answers).
      split; [|constructor; auto].
      rewrite Hc. simpl. rewrite <- app_assoc. reflexivity.
    + rewrite (dispatch_idle _ _ _ Hacc). unfold mbind, M_bind, bind, record. simpl.
      match goal with |- context [deliver_all _ _ _ ?s1] =>
        destruct (IH s1) as (answers & Hc & Hall) end.
      exists (call_ack correlation_id :: answers).
      split; [|constructor; auto].
      rewrite Hc. simpl. rewrite <- app_assoc. reflexivity.
  - destruct (IH (worker_start s)) as (answers & Hc & Hall).
    exists answers. split; [|exact Hall].
    rewrite Hc, worker_start_calls. reflexivity.
  - destruct (IH (worker_finish env i s)) as (answers & Hc & Hall).
    exists answers. split; [|exact Hall].
    rewrite Hc, worker_finish_calls. reflexivity.
Qed.

Lemma close_subscriber_calls subscriber (s : State') :
  calls (proc (snd (_close_subscriber env (Some subscriber) s)))
    = (calls (proc s) ++ [call_close])%list.
Proof.
  unfold _close_subscriber, extern.
  destruct (Subscriber_close env) as [[]|e]; [|destruct e]; reflexivity.
Qed.

Lemma finally_state {A} (r : result A) (clause : M unit) (s : State') :
  snd (finally r clause s) = snd (clause s).
Proof. unfold finally. destruct (clause s) as [[[]|e] s1]; reflexivity. Qed.

Lemma run_calls (s : State') :
  calls (proc (snd (run env s)))
    = calls (proc (snd (_listen env
                          (snd (print "Opening connection to GX Cloud" s))))).
Proof.
  unfold run, mbind, M_bind, bind. simpl.
  destruct (_listen env _) as [[[]|e] s1]; reflexivity.
Qed.

(** X11. Once the client and the subscriber are constructed, the outcome
    of [run] depends only on how [consume] and [close] end, whatever was
    delivered in between: if [close] raises anything but [SubscriberError],
    [run] raises that; otherwise [run] returns normally when [consume]
    returned or raised one of the three caught exceptions, and raises the
    exception of [consume] unchanged when it is any other. *)
Theorem X11_run_outcome_when_open (s : State') :
  RabbitMQClient_init env (broker_url (_config (self s))) = Return tt ->
  Subscriber_init env = Return tt ->
  fst (run env s)
    = match Subscriber_close env with
      | Return _ | Raise (SubscriberError _) =>
          match consume_end env with
          | Raise e => if caught_by_listen e then Return tt else Raise e
          | Return a => Return a
          end
      | Raise e' => Raise e'
      end.
Proof.
  intros Hclient Hsub. rewrite (proj1 (run_listen env s)).
  apply (listen_opened env (snd (print "Opening connection to GX Cloud" s)));
    assumption.
Qed.

(** X12. The order of the calls of a session that opens: the client is
    constructed with the configured broker URL, then the subscriber, then
    [consume] is called on the queue named by the organization id; after
    that come only answers to delivered messages, and the one [close] call
    is the last call of the session, however [consume] and [close] end. *)
Theorem X12_session_call_order (s : State') :
  RabbitMQClient_init env (broker_url (_config (self s))) = Return tt ->
  Subscriber_init env = Return tt ->
  exists answers,
    calls (proc (snd (run env s)))
      = (calls (proc s)
         ++ [call_RabbitMQClient (broker_url (_config (self s)));
             call_Subscriber;
             call_consume (organization_id (_config (self s)))]
         ++ answers ++ [call_close])%list /\
    Forall (fun c => is_answer c = true) answers.
Proof.
  intros Hclient Hsub. rewrite run_calls.
  set (s0 := snd (print "Opening connection to GX Cloud" s)).
  rewrite listen_unfold, finally_state.
  assert (Htry : exists answers,
             fst (fst (_listen_try env s0)) <> None /\
             calls (proc (snd (_listen_try env s0)))
               = (calls (proc s)
                  ++ [call_RabbitMQClient (broker_url (_config (self s)));
                      call_Subscriber;
                      call_consume (organization_id (_config (self s)))]
                  ++ answers)%list /\
             Forall (fun c => is_answer c = true) answers).
  { unfold _listen_try, extern. subst s0. simpl. rewrite Hclient, Hsub. simpl.
    unfold Subscriber_consume, mbind, M_bind, bind, print, record, ends. simpl.
    match goal with |- context [deliver_all _ _ _ ?s1] =>
      destruct (deliver_all_calls (consume_schedule env) s1)
        as (answers & Hc & Hall);
      destruct (deliver_all_dispatch env (consume_schedule env) s1) as [Hr _];
      destruct (deliver_all env dispatch' (consume_schedule env) s1)
        as [r s2] end.
    simpl in Hc, Hr. subst r. simpl. exists answers.
    split; [discriminate|]. split; [|exact Hall].
    rewrite Hc. simpl. rewrite <- !app_assoc. reflexivity. }
  destruct Htry as (answers & Hsome & Hcalls & Hall).
  destruct (_listen_try env s0) as [[subscriber r] s1]. simpl in *.
  destruct subscriber as [subscriber|]; [|contradiction].
  exists answers. split; [|exact Hall].
  rewrite close_subscriber_calls.
  rewrite (proj2 (listen_except_spec r s1)), Hcalls.
  rewrite <- !app_assoc. reflexivity.
Qed.

(** X13. A session that does not open stops at the constructor that
    failed: when the client constructor raises, the subscriber is never
    constructed, and when the subscriber constructor raises, [consume] is
    never called; in both cases no [close] call is made, and [run] returns
    normally for [KeyboardInterrupt], [SubscriberError] and [ClientError]
    and raises any other exception unchanged. *)
Theorem X13_unopened_session (s : State') e :
  (RabbitMQClient_init env (broker_url (_config (self s))) = Raise e ->
   calls (proc (snd (run env s)))
     = (calls (proc s)
        ++ [call_RabbitMQClient (broker_url (_config (self s)))])%list /\
   fst (run env s) = if caught_by_listen e then Return tt else Raise e) /\
  (RabbitMQClient_init env (broker_url (_config (self s))) = Return tt ->
   Subscriber_init env = Raise e ->
   calls (proc (snd (run env s)))
     = (calls (proc s)
        ++ [call_RabbitMQClient (broker_url (_config (self s)));
            call_Subscriber])%list /\
   fst (run env s) = if caught_by_listen e then Return tt else Raise e).
Proof.
  split.
  - intros Hclient. rewrite run_calls, (proj1 (run_listen env s)).
    unfold _listen, _listen_try, extern. simpl. rewrite Hclient.
    destruct e; simpl; split; reflexivity.
  - intros Hclient Hsub. rewrite run_calls, (proj1 (run_listen env s)).
    unfold _listen, _listen_try, extern. simpl. rewrite Hclient, Hsub.
    destruct e; simpl; (split; [rewrite <- app_assoc|]; reflexivity).
Qed.

End Further.

(** * The statements at work on the concrete deployment *)

Lemma C1_witness :
  __init__ Demo.env fresh_process = (Return Demo.agent, Demo.started) /\
  let s := steps Demo.env (consume_schedule Demo.env) Demo.state0 in
  _max_workers (_executor (self s)) = 1 /\
  length (under_execution s) <= 1 /\
  length (outstanding s) <= 1.
Proof.
  split; [vm_compute; reflexivity|].
  pose proof (C1_at_most_one_event_under_execution Demo.env fresh_process
                Demo.agent Demo.started (consume_schedule Demo.env)
                ltac:(vm_compute; reflexivity)) as H.
  simpl in H. destruct H as (H1 & H2 & H3 & _). repeat split; assumption.
Defined.

Lemma C2_witness :
  _current_task (self Demo.busy_state) = Some 0 /\
  futures (proc Demo.busy_state) !! 0
    = Some {| _state := RUNNING; _exception := None |} /\
  _handle_event_as_thread "E2" "c2" Demo.busy_state
    = (Raise RequeueMessageError, Demo.busy_state).
Proof.
  split; [reflexivity|]. split; [reflexivity|].
  apply (C2_busy_slot_rejects_without_effect Demo.busy_state "E2" "c2" 0
           {| _state := RUNNING; _exception := None |});
    reflexivity.
Defined.

Lemma C4_witness :
  futures (proc Demo.failed_state) !! 0
    = Some {| _state := FINISHED;
              _exception := Some (OtherError "ValueError" "boom") |} /\
  _can_accept_new_task Demo.failed_state = true /\
  fst (_handle_event_as_thread "E2" "c2" Demo.failed_state) = Return tt /\
  _can_accept_new_task Demo.boom_running = false /\
  _can_accept_new_task (worker_finish Demo.env 0 Demo.boom_running) = true.
Proof.
  split; [reflexivity|].
  destruct (C4_completed_handle_frees_slot Demo.env Demo.failed_state 0
              {| _state := FINISHED;
                 _exception := Some (OtherError "ValueError" "boom") |}
              ltac:(reflexivity) ltac:(reflexivity)) as [Hdone _].
  destruct (Hdone ltac:(reflexivity)) as [Hacc Hnext].
  split; [exact Hacc|]. split; [apply Hnext|]. split; [reflexivity|].
  destruct (C4_completed_handle_frees_slot Demo.env Demo.boom_running 0
              {| _state := RUNNING; _exception := None |}
              ltac:(reflexivity) ltac:(reflexivity)) as (_ & _ & Hfinish).
  apply (Hfinish 0 {| wi_future := 0; wi_event := "boom";
                      wi_correlation_id := "c1" |});
    reflexivity.
Defined.

Lemma C5_witness :
  _can_accept_new_task Demo.state0 = true /\
  fst (_handle_event_as_thread "E1" "c1" Demo.state0) = Return tt /\
  _current_task (self (snd (_handle_event_as_thread "E1" "c1" Demo.state0)))
    = Some 0 /\
  _work_queue (_executor (self (snd (_handle_event_as_thread "E1" "c1"
                                        Demo.state0))))
    = [{| wi_future := 0; wi_event := "E1"; wi_correlation_id := "c1" |}] /\
  futures (proc (worker_finish Demo.env 0
                   (worker_start (snd (_handle_event_as_thread "E1" "c1"
                                         Demo.state0))))) !! 0
    = Some {| _state := FINISHED; _exception := None |}.
Proof.
  split; [reflexivity|].
  pose proof (C5_admitted_event_is_submitted Demo.env Demo.state0 "E1" "c1"
                ltac:(reflexivity)) as H.
  simpl in H. destruct H as (H1 & H2 & _ & H4 & _ & _ & _ & _ & _ & Hrun).
  split; [exact H1|]. split; [exact H4|]. split; [exact H2|].
  apply Hrun. split; [reflexivity | exact I].
Defined.

Lemma C6_witness :
  Subscriber_close Demo.env_close_fails
    = Raise (SubscriberError "channel already closed") /\
  fst (_close_subscriber Demo.env_close_fails (Some Demo.subscriber) Demo.state0)
    = Return tt /\
  fst (_listen Demo.env_close_fails Demo.state0) = Return tt.
Proof.
  split; [reflexivity|].
  destruct (C6_subscriber_error_on_close_is_swallowed Demo.env_close_fails
              Demo.state0 Demo.subscriber "channel already closed"
              ltac:(reflexivity)) as (Hclose & _ & Hlisten).
  split; [rewrite Hclose; reflexivity | rewrite Hlisten; reflexivity].
Defined.

Lemma C7_witness :
  consume_end Demo.env = Raise KeyboardInterrupt /\
  Subscriber_close Demo.env = Return tt /\
  close_calls (proc (snd (run Demo.env Demo.state0))) = 1 /\
  fst (run Demo.env Demo.state0) = Return tt.
Proof.
  split; [reflexivity|]. split; [reflexivity|].
  destruct (C7_shutdown_closes_once_and_returns Demo.env Demo.state0
              KeyboardInterrupt ltac:(reflexivity) ltac:(reflexivity)
              ltac:(reflexivity) ltac:(left; reflexivity)) as [Hone Hret].
  split; [exact Hone | apply Hret; left; reflexivity].
Defined.

Lemma C8_witness :
  environ (Demo.env_without "BROKER_URL") !! "BROKER_URL" = None /\
  (exists msg, fst (__init__ (Demo.env_without "BROKER_URL") fresh_process)
               = Raise (GXAgentError msg)) /\
  calls (snd (__init__ (Demo.env_without "BROKER_URL") fresh_process)) = [].
Proof.
  split; [vm_compute; reflexivity|].
  destruct (C8_missing_configuration_fails_fast
              (Demo.env_without "BROKER_URL") fresh_process
              ltac:(left; vm_compute; reflexivity)) as (Hraise & _ & Hcalls & _).
  split; [exact Hraise | exact Hcalls].
Defined.

Lemma C9_witness :
  __init__ Demo.env fresh_process = (Return Demo.agent, Demo.started) /\
  _can_accept_new_task Demo.state0 = true /\
  fst (_handle_event_as_thread "E1" "c1" Demo.state0) = Return tt.
Proof.
  split; [vm_compute; reflexivity|].
  destruct (C9_fresh_agent_accepts_first_event Demo.env fresh_process
              Demo.agent Demo.started ltac:(vm_compute; reflexivity))
    as (_ & Hacc & Hfirst).
  split; [exact Hacc | apply Hfirst].
Defined.

(** * Where the close step does not swallow *)

(** C6, as stated, fails: [close] raises an error other than
    [SubscriberError]; the close step lets it through, and it replaces the
    error that ended [consume] as the outcome of [run]. *)
Lemma C6_counterexample_close_error_escapes :
  Subscriber_close Demo.env_close_escapes
    = Raise (OtherError "OSError" "socket closed") /\
  fst (_close_subscriber Demo.env_close_escapes (Some Demo.subscriber)
         Demo.state0)
    = Raise (OtherError "OSError" "socket closed") /\
  snd (fst (_listen_try Demo.env_close_escapes Demo.state0))
    = Raise (OtherError "ValueError" "bad frame") /\
  fst (run Demo.env_close_escapes Demo.state0)
    = Raise (OtherError "OSError" "socket closed").
Proof. vm_compute. repeat split. Qed.

(** C7, as stated, fails: the connection opened and [consume] was ended by
    a [SubscriberError], one [close] call was made, and yet [run] raises,
    because the [close] call was interrupted. *)
Lemma C7_counterexample_run_raises :
  RabbitMQClient_init Demo.env_interrupted_closing
    (broker_url (_config (self Demo.state0))) = Return tt /\
  Subscriber_init Demo.env_interrupted_closing = Return tt /\
  consume_end Demo.env_interrupted_closing
    = Raise (SubscriberError "connection lost") /\
  close_calls (proc (snd (run Demo.env_interrupted_closing Demo.state0))) = 1 /\
  fst (run Demo.env_interrupted_closing Demo.state0) = Raise KeyboardInterrupt /\
  fst (run Demo.env_interrupted_closing Demo.state0) <> Return tt.
Proof. vm_compute. repeat split. discriminate. Qed.

Lemma C10_witness :
  RabbitMQClient_init Demo.env_unreachable
    (broker_url (_config (self Demo.state0)))
    = Raise (ClientError "connection refused") /\
  _close_subscriber Demo.env_unreachable None Demo.state0
    = (Return tt, Demo.state0) /\
  close_calls (proc (snd (_listen Demo.env_unreachable Demo.state0))) = 0 /\
  fst (_listen Demo.env_unreachable Demo.state0) = Return tt.
Proof.
  split; [reflexivity|].
  destruct (C10_close_is_total_on_absent_subscriber Demo.env_unreachable
              Demo.state0) as (Hnone & _ & Hfail).
  split; [exact Hnone|].
  destruct (Hfail (ClientError "connection refused")
              ltac:(left; reflexivity)) as (_ & Hcalls & Hout).
  split; [exact Hcalls | exact Hout].
Defined.

(** * The further properties at work on the concrete deployment *)

Lemma X1_witness :
  __init__ Demo.env fresh_process = (Return Demo.agent, Demo.started) /\
  (_can_accept_new_task Demo.busy_state = true
   <-> outstanding Demo.busy_state = []) /\
  (_can_accept_new_task Demo.failed_state = true
   <-> outstanding Demo.failed_state = []).
Proof.
  split; [vm_compute; reflexivity|]. split.
  - exact (X1_admission_check_is_exact Demo.env fresh_process Demo.agent
             Demo.started [Deliver "E1" "c1"; WorkerStart]
             ltac:(vm_compute; reflexivity)).
  - exact (X1_admission_check_is_exact Demo.env fresh_process Demo.agent
             Demo.started [Deliver "boom" "c1"; WorkerStart; WorkerFinish 0]
             ltac:(vm_compute; reflexivity)).
Defined.

Lemma X2_witness :
  _can_accept_new_task (steps Demo.env [Deliver "boom" "c1"] Demo.state0)
    = false /\
  _can_accept_new_task
    (steps Demo.env ([Deliver "boom" "c1"] ++ [WorkerStart; WorkerFinish 0])
       Demo.state0) = true.
Proof.
  split; [reflexivity|].
  exact (proj1 (X2_worker_turn_frees_slot Demo.env fresh_process Demo.agent
                  Demo.started [Deliver "boom" "c1"]
                  ltac:(vm_compute; reflexivity))).
Defined.

Lemma X3_witness :
  _can_accept_new_task Demo.busy_state = false /\
  steps Demo.env [Deliver "E2" "c2"; Deliver "E3" "c3"; Deliver "E2" "c2"]
    Demo.busy_state = Demo.busy_state.
Proof.
  split; [reflexivity|].
  exact (proj1 (X3_burst_while_busy_is_rejected Demo.env Demo.busy_state
                  [Deliver "E2" "c2"; Deliver "E3" "c3"; Deliver "E2" "c2"]
                  ltac:(reflexivity) ltac:(repeat constructor))).
Defined.

Lemma X4_witness :
  _can_accept_new_task Demo.state0 = true /\
  fst (_handle_event_as_thread "E1" "c1" Demo.state0) = Return tt /\
  fst (_handle_event_as_thread "E2" "c2"
         (snd (_handle_event_as_thread "E1" "c1" Demo.state0)))
    = Raise RequeueMessageError /\
  fst (_handle_event_as_thread "E3" "c3"
         (worker_finish Demo.env 0
            (worker_start (snd (_handle_event_as_thread "E1" "c1"
                                  Demo.state0)))))
    = Return tt.
Proof.
  split; [reflexivity|].
  pose proof (X4_accept_reject_accept Demo.env fresh_process Demo.agent
                Demo.started [] "E1" "c1" "E2" "c2" "E3" "c3"
                ltac:(vm_compute; reflexivity) ltac:(reflexivity)) as H.
  destruct H as (H1 & H2 & _ & H4).
  split; [exact H1|]. split; [|exact H4].
  exact (f_equal fst H2).
Defined.



Lemma X9_witness :
  environ (Demo.env_without "BROKER_URL") !! "BROKER_URL" = None /\
  _get_config_from_env (Demo.env_without "BROKER_URL")
    = Raise (GXAgentError "Missing required environment variable: BROKER_URL").
Proof.
  split; [vm_compute; reflexivity|].
  apply (proj2 (X9_config_error_iff_variable_absent
                  (Demo.env_without "BROKER_URL"))).
  vm_compute. reflexivity.
Defined.

Lemma X11_witness :
  fst (run (Demo.env_ending (Raise (OtherError "ValueError" "bad frame"))
                            (Return tt)) Demo.state0)
    = Raise (OtherError "ValueError" "bad frame") /\
  fst (run (Demo.env_ending (Return tt)
                            (Raise (SubscriberError "channel already closed")))
         Demo.state0)
    = Return tt.
Proof.
  split.
  - exact (X11_run_outcome_when_open
             (Demo.env_ending (Raise (OtherError "ValueError" "bad frame"))
                              (Return tt))
             Demo.state0 ltac:(reflexivity) ltac:(reflexivity)).
  - exact (X11_run_outcome_when_open
             (Demo.env_ending (Return tt)
                (Raise (SubscriberError "channel already closed")))
             Demo.state0 ltac:(reflexivity) ltac:(reflexivity)).
Defined.

Lemma X12_witness :
  exists answers,
    calls (proc (snd (run Demo.env Demo.state0)))
      = ([call_get_context]
         ++ [call_RabbitMQClient "amqps://broker.example:5671";
             call_Subscriber; call_consume "org-42"]
         ++ answers ++ [call_close])%list /\
    Forall (fun c => is_answer c = true) answers.
Proof.
  exact (X12_session_call_order Demo.env Demo.state0
           ltac:(reflexivity) ltac:(reflexivity)).
Defined.

Lemma X13_witness :
  RabbitMQClient_init Demo.env_unreachable
    (broker_url (_config (self Demo.state0)))
    = Raise (ClientError "connection refused") /\
  calls (proc (snd (run Demo.env_unreachable Demo.state0)))
    = [call_get_context; call_RabbitMQClient "amqps://broker.example:5671"] /\
  fst (run Demo.env_unreachable Demo.state0) = Return tt.
Proof.
  split; [reflexivity|].
  exact (proj1 (X13_unopened_session Demo.env_unreachable Demo.state0
                  (ClientError "connection refused"))
           ltac:(reflexivity)).
Defined.

Lemma X10_witness :
  (_get_config_from_env (Demo.env_without "GE_CLOUD_ORGANIZATION_ID")
     = Raise (GXAgentError
         "Missing required environment variable: GE_CLOUD_ORGANIZATION_ID") /\
   snd (__init__ (Demo.env_without "GE_CLOUD_ORGANIZATION_ID") fresh_process)
     = print_to "Initializing GX-Agent" fresh_process) \/
  ((exists config,
      _get_config_from_env (Demo.env_without "GE_CLOUD_ORGANIZATION_ID")
        = Return config) /\
   get_context (Demo.env_without "GE_CLOUD_ORGANIZATION_ID")
     = Raise (GXAgentError
         "Missing required environment variable: GE_CLOUD_ORGANIZATION_ID") /\
   calls (snd (__init__ (Demo.env_without "GE_CLOUD_ORGANIZATION_ID")
                 fresh_process))
     = ([] ++ [call_get_context])%list).
Proof.
  apply (proj1 (X10_construction_failures
                  (Demo.env_without "GE_CLOUD_ORGANIZATION_ID") fresh_process)).
  vm_compute. reflexivity.
Defined.
